(** * WindowSettings: a shallow embedding of
    [src/components/settings/WindowSettings.tsx]

    The component is a leaf of the settings dialog: six toggle rows, a
    conditionally rendered sync sub-panel (path field and "clear" button)
    and one asynchronous handler, [handleClearVscodeConfig].  The
    development below embeds

    - the JavaScript values and operators the component's expressions use
      ([!!], [&&], [||], [??], [?.], [String(_)]);
    - the translation lookup [t] with its [{{name}}] interpolation;
    - handlers as programs over the component's effects ([onChange],
      [setIsClearing], [toast.success], [toast.error], and the awaited
      [settingsApi.clearVscodeClaudeConfig()]), with [try]/[catch]/[finally];
    - the render function, and the event loop that runs handlers up to their
      suspension point and resumes them when the awaited promise settles. *)

From Stdlib Require Import String Ascii List Bool Arith Lia.
Import ListNotations.
Local Open Scope string_scope.
Local Set Warnings "-register-all".

(* ===================================================================== *)
(** ** JavaScript values *)
(* ===================================================================== *)

Module Js.

(** The values that show up in this component: the fields of the settings
    record, the values of a partial update, the parameters of a
    translation, and the reason a promise rejects with.  A rejection
    reason is either JSON data handed over by the backend bridge or an
    [Error] instance.  A number is carried by its canonical rendering
    (the result of [Number::toString]), which is all the component ever
    does with one. *)
Inductive value : Type :=
| VUndefined
| VNull
| VBool (b : bool)
| VNumber (repr : string)
| VString (s : string)
| VArray (items : list value)
| VObject (props : list (string * value))
| VError (name : string) (message : string).

(** [!!v] *)
Definition truthy (v : value) : bool :=
  match v with
  | VUndefined | VNull => false
  | VBool b => b
  | VNumber r => negb ((r =? "0") || (r =? "NaN"))
  | VString s => negb (s =? "")
  | VArray _ | VObject _ | VError _ _ => true
  end.

(** [a || b] *)
Definition or (a b : value) : value := if truthy a then a else b.

Definition nullish (v : value) : bool :=
  match v with
  | VUndefined | VNull => true
  | _ => false
  end.

(** [a ?? b] *)
Definition coalesce (a b : value) : value := if nullish a then b else a.

Fixpoint lookup (key : string) (props : list (string * value)) : value :=
  match props with
  | [] => VUndefined
  | (k, v) :: rest => if k =? key then v else lookup key rest
  end.

(** [v?.message]: [undefined] on [null] and [undefined]; otherwise the
    property read.  Primitives and arrays have no [message], neither own
    nor inherited; an [Error] always has one. *)
Definition optional_message (v : value) : value :=
  match v with
  | VObject props => lookup "message" props
  | VError _ message => VString message
  | _ => VUndefined
  end.

Fixpoint join (sep : string) (parts : list string) : string :=
  match parts with
  | [] => ""
  | [p] => p
  | p :: rest => p ++ sep ++ join sep rest
  end.

(** Own property test, [Object.hasOwn(o, key)]. *)
Fixpoint has_own (key : string) (props : list (string * value)) : bool :=
  match props with
  | [] => false
  | (k, _) :: rest => (k =? key) || has_own key rest
  end.

(** All the results, unless one of them is missing. *)
Fixpoint sequence {A : Type} (l : list (option A)) : option (list A) :=
  match l with
  | [] => Some []
  | None :: _ => None
  | Some x :: rest =>
      match sequence rest with
      | Some xs => Some (x :: xs)
      | None => None
      end
  end.

(** [String(v)], and just as well the conversion of [v] by a template or a
    concatenation; [None] when the conversion throws a [TypeError].  An
    array joins its elements with a comma, rendering [null] and
    [undefined] elements as nothing.  A plain object goes through
    [Object.prototype.toString], unless it has a [toString] property of its
    own: none of the values here is callable, so the own property hides the
    inherited method, [valueOf] gives no primitive either, and the
    conversion throws.  An error goes through [Error.prototype.toString]. *)
Fixpoint to_string (v : value) : option string :=
  match v with
  | VUndefined => Some "undefined"
  | VNull => Some "null"
  | VBool true => Some "true"
  | VBool false => Some "false"
  | VNumber r => Some r
  | VString s => Some s
  | VArray items =>
      option_map (join ",")
        (sequence
           (map (fun item => if nullish item then Some "" else to_string item)
                items))
  | VObject props =>
      if has_own "toString" props then None else Some "[object Object]"
  | VError name message =>
      Some (if message =? "" then name
            else if name =? "" then message
            else name ++ ": " ++ message)
  end.

(** What a failed conversion throws.  The wording of the message is the
    engine's. *)
Definition type_error : value :=
  VError "TypeError" "Cannot convert object to primitive value".

Definition of_bool (o : option bool) : value :=
  match o with Some b => VBool b | None => VUndefined end.

Definition of_string (o : option string) : value :=
  match o with Some s => VString s | None => VUndefined end.

End Js.

(* ===================================================================== *)
(** ** Translation lookup *)
(* ===================================================================== *)

Module I18n.

(** A template is a run of literal text and [{{name}}] placeholders. *)
Inductive segment : Type :=
| Lit (text : string)
| Var (name : string).

Definition snoc (s : string) (c : ascii) : string := s ++ String c "".

(** One pass over the template.  [lit] is the literal text read so far;
    [name] is [Some n] while inside a placeholder whose name so far is
    [n].  A placeholder left open at the end of the template is literal
    text. *)
Fixpoint scan (tpl : string) (lit : string) (name : option string)
  : list segment :=
  match name with
  | None =>
      match tpl with
      | "" => [Lit lit]
      | String "{" (String "{" rest) => Lit lit :: scan rest "" (Some "")
      | String c rest => scan rest (snoc lit c) None
      end
  | Some n =>
      match tpl with
      | "" => [Lit ("{{" ++ n)]
      | String "}" (String "}" rest) => Var n :: scan rest "" None
      | String c rest => scan rest "" (Some (snoc n c))
      end
  end.

Definition parse (tpl : string) : list segment := scan tpl "" None.

Definition params := list (string * Js.value).

Fixpoint find (name : string) (ps : params) : option Js.value :=
  match ps with
  | [] => None
  | (k, v) :: rest => if k =? name then Some v else find name rest
  end.

(** A placeholder is replaced by the string form of its parameter, whose
    conversion may throw; one without a parameter stays as written. *)
Definition fill (ps : params) (seg : segment) : option string :=
  match seg with
  | Lit text => Some text
  | Var name =>
      match find name ps with
      | Some v => Js.to_string v
      | None => Some ("{{" ++ name ++ "}}")
      end
  end.

Definition interpolate (tpl : string) (ps : params) : option string :=
  option_map (String.concat "")
             (Js.sequence (map (fill ps) (parse tpl))).

Fixpoint mentions (name : string) (segs : list segment) : bool :=
  match segs with
  | [] => false
  | Var n :: rest => (n =? name) || mentions name rest
  | Lit _ :: rest => mentions name rest
  end.

(** The locale table of the active language: translation key to
    template.  The tables are the application's locale files. *)
Definition resources := string -> option string.

Definition template (res : resources) (key defaultValue : string) : string :=
  match res key with
  | Some tpl => tpl
  | None => defaultValue
  end.

(** Modelled from the spec: the consumed lookup
    [translate(key, {defaultValue, ...params}) -> string].  The template
    registered for [key], or [defaultValue] when there is none, with the
    parameters interpolated; [None] when converting a parameter throws. *)
Definition t (res : resources) (key defaultValue : string) (ps : params)
  : option string :=
  interpolate (template res key defaultValue) ps.

End I18n.

(* ===================================================================== *)
(** ** Settings record and partial updates *)
(* ===================================================================== *)

(** Modelled from the spec: the type [SettingsFormState] is imported from
    [@/hooks/useSettings]; the spec's data model lists its boolean flags and
    the optional string path.  The five flags the component coerces with
    [!!] may be absent; [minimizeToTrayOnClose] is passed on as it is. *)
Record SettingsFormState : Type := {
  launchOnStartup : option bool;
  silentStartup : option bool;
  enableClaudePluginIntegration : option bool;
  enableVscodeClaudeSync : option bool;
  skipClaudeOnboarding : option bool;
  minimizeToTrayOnClose : bool;
  vscodeSettingsPath : option string
}.

(** [Partial<SettingsFormState>]: an object literal, as its list of
    properties. *)
Definition Partial := list (string * Js.value).

Module Flag.

Inductive t : Type :=
| launchOnStartup
| silentStartup
| enableClaudePluginIntegration
| enableVscodeClaudeSync
| skipClaudeOnboarding
| minimizeToTrayOnClose.

Definition all : list t :=
  [launchOnStartup; silentStartup; enableClaudePluginIntegration;
   enableVscodeClaudeSync; skipClaudeOnboarding; minimizeToTrayOnClose].

Definition key (f : t) : string :=
  match f with
  | launchOnStartup => "launchOnStartup"
  | silentStartup => "silentStartup"
  | enableClaudePluginIntegration => "enableClaudePluginIntegration"
  | enableVscodeClaudeSync => "enableVscodeClaudeSync"
  | skipClaudeOnboarding => "skipClaudeOnboarding"
  | minimizeToTrayOnClose => "minimizeToTrayOnClose"
  end.

End Flag.

(** [settings.<flag>], as the JavaScript value read from the record. *)
Definition read_flag (settings : SettingsFormState) (f : Flag.t) : Js.value :=
  match f with
  | Flag.launchOnStartup => Js.of_bool (launchOnStartup settings)
  | Flag.silentStartup => Js.of_bool (silentStartup settings)
  | Flag.enableClaudePluginIntegration =>
      Js.of_bool (enableClaudePluginIntegration settings)
  | Flag.enableVscodeClaudeSync => Js.of_bool (enableVscodeClaudeSync settings)
  | Flag.skipClaudeOnboarding => Js.of_bool (skipClaudeOnboarding settings)
  | Flag.minimizeToTrayOnClose => Js.VBool (minimizeToTrayOnClose settings)
  end.

(* ===================================================================== *)
(** ** Handlers as programs *)
(* ===================================================================== *)

(** How the promise of [settingsApi.clearVscodeClaudeConfig()] settles. *)
Inductive Outcome : Type :=
| Resolved
| Rejected (reason : Js.value).

(** The effects a handler of this component can have. *)
Inductive Command : Type :=
| OnChange (updates : Partial)
| SetIsClearing (next : bool)
| ToastSuccess (text : string)
| ToastError (text : string).

(** A handler body.  [Await k] calls the clear operation and suspends until
    its promise settles; [Throw e] is an abrupt completion. *)
Inductive Prog : Type :=
| Done
| Throw (e : Js.value)
| Do (c : Command) (k : Prog)
| Await (k : Outcome -> Prog).

Definition perform (c : Command) : Prog := Do c Done.

Fixpoint seq (p q : Prog) : Prog :=
  match p with
  | Done => q
  | Throw e => Throw e
  | Do c k => Do c (seq k q)
  | Await k => Await (fun o => seq (k o) q)
  end.

Notation "p ;; q" := (seq p q) (at level 61, right associativity).

(** [try { p } catch (e) { handler e }] *)
Fixpoint try_catch (p : Prog) (handler : Js.value -> Prog) : Prog :=
  match p with
  | Done => Done
  | Throw e => handler e
  | Do c k => Do c (try_catch k handler)
  | Await k => Await (fun o => try_catch (k o) handler)
  end.

(** [try { p } finally { cleanup }]: the cleanup runs on both completions,
    and an abrupt completion of [p] continues after it. *)
Fixpoint try_finally (p cleanup : Prog) : Prog :=
  match p with
  | Done => cleanup
  | Throw e => cleanup ;; Throw e
  | Do c k => Do c (try_finally k cleanup)
  | Await k => Await (fun o => try_finally (k o) cleanup)
  end.

(** [await settingsApi.clearVscodeClaudeConfig()]: a rejection is thrown at
    the await. *)
Definition await_clearVscodeClaudeConfig : Prog :=
  Await (fun o => match o with
                  | Resolved => Done
                  | Rejected reason => Throw reason
                  end).

Definition onChange (updates : Partial) : Prog := perform (OnChange updates).
Definition setIsClearing (next : bool) : Prog := perform (SetIsClearing next).
Definition toast_success (text : string) : Prog := perform (ToastSuccess text).
Definition toast_error (text : string) : Prog := perform (ToastError text).

(* ===================================================================== *)
(** ** The component *)
(* ===================================================================== *)

(** Props of the shared widgets, as far as the component sets them. *)
Record ToggleRowProps : Type := {
  checked : bool;
  onCheckedChange : bool -> Prog
}.

Record InputProps : Type := {
  value : Js.value;
  input_onChange : string -> Prog   (* applied to [e.target.value] *)
}.

Record ButtonProps : Type := {
  disabled : bool;
  onClick : Prog
}.

Record SyncPanel : Type := {
  pathInput : InputProps;
  clearButton : ButtonProps
}.

(** What one render returns: the six toggle rows and, when shown, the sync
    sub-panel. *)
Record View : Type := {
  toggleRow : Flag.t -> ToggleRowProps;
  syncPanel : option SyncPanel
}.

Definition clearSuccessKey : string := "settings.clearVscodeClaudeConfigSuccess".
Definition clearSuccessDefault : string := "VS Code Claude 插件配置已清除".
Definition clearFailedKey : string := "settings.clearVscodeClaudeConfigFailed".
Definition clearFailedDefault : string := "清除失败: {{error}}".

(** [(error as Error)?.message ?? String(error)]; the right operand is
    evaluated, and can throw, only when the message is [undefined] or
    [null]. *)
Definition error_param (error : Js.value) : option Js.value :=
  if Js.nullish (Js.optional_message error)
  then option_map Js.VString (Js.to_string error)
  else Some (Js.optional_message error).

(** Evaluates an argument, then goes on with its value; a throw during the
    evaluation is a throw of the statement. *)
Definition eval {A : Type} (r : option A) (k : A -> Prog) : Prog :=
  match r with
  | Some a => k a
  | None => Throw Js.type_error
  end.

Section Component.

Variable res : I18n.resources.

Definition clear_success_text : option string :=
  I18n.t res clearSuccessKey clearSuccessDefault [].

Definition clear_failed_text (error : Js.value) : option string :=
  match error_param error with
  | Some param =>
      I18n.t res clearFailedKey clearFailedDefault [("error", param)]
  | None => None
  end.

Definition handleClearVscodeConfig : Prog :=
  setIsClearing true ;;
  try_finally
    (try_catch
       (await_clearVscodeClaudeConfig ;;
        eval clear_success_text toast_success)
       (fun error => eval (clear_failed_text error) toast_error))
    (setIsClearing false).

Definition flag_row (settings : SettingsFormState) (f : Flag.t)
  : ToggleRowProps :=
  match f with
  | Flag.launchOnStartup =>
      {| checked := Js.truthy (Js.of_bool (launchOnStartup settings));
         onCheckedChange v := onChange [("launchOnStartup", Js.VBool v)] |}
  | Flag.silentStartup =>
      {| checked := Js.truthy (Js.of_bool (silentStartup settings));
         onCheckedChange v := onChange [("silentStartup", Js.VBool v)] |}
  | Flag.enableClaudePluginIntegration =>
      {| checked :=
           Js.truthy (Js.of_bool (enableClaudePluginIntegration settings));
         onCheckedChange v :=
           onChange [("enableClaudePluginIntegration", Js.VBool v)] |}
  | Flag.enableVscodeClaudeSync =>
      {| checked := Js.truthy (Js.of_bool (enableVscodeClaudeSync settings));
         onCheckedChange v :=
           onChange [("enableVscodeClaudeSync", Js.VBool v)] |}
  | Flag.skipClaudeOnboarding =>
      {| checked := Js.truthy (Js.of_bool (skipClaudeOnboarding settings));
         onCheckedChange v := onChange [("skipClaudeOnboarding", Js.VBool v)] |}
  | Flag.minimizeToTrayOnClose =>
      {| checked := minimizeToTrayOnClose settings;
         onCheckedChange v :=
           onChange [("minimizeToTrayOnClose", Js.VBool v)] |}
  end.

(** The body of [WindowSettings] below its hooks: [settings] is the prop,
    [isClearing] the current value of the state hook. *)
Definition render (settings : SettingsFormState) (isClearing : bool) : View :=
  {| toggleRow := flag_row settings;
     syncPanel :=
       if Js.truthy (Js.of_bool (enableVscodeClaudeSync settings)) then
         Some
           {| pathInput :=
                {| value :=
                     Js.coalesce (Js.of_string (vscodeSettingsPath settings))
                                 (Js.VString "");
                   input_onChange text :=
                     onChange
                       [("vscodeSettingsPath",
                         Js.or (Js.VString text) Js.VUndefined)] |};
              clearButton :=
                {| disabled := isClearing;
                   onClick := handleClearVscodeConfig |} |}
       else None |}.

End Component.

(* ===================================================================== *)
(** ** Widgets *)
(* ===================================================================== *)

(** Modelled from the spec: a toggle row is a labelled on/off control bound
    to a boolean; a user interaction flips it, reporting the negation of
    the value it shows. *)
Definition toggle_interact (row : ToggleRowProps) : Prog :=
  onCheckedChange row (negb (checked row)).

(** Modelled from the spec: the text field shows its [value] and reports the
    raw text the user entered.  The component only ever passes a string. *)
Definition input_shown (input : InputProps) : string :=
  match Js.to_string (value input) with
  | Some text => text
  | None => ""
  end.

Definition input_enter (input : InputProps) (text : string) : Prog :=
  input_onChange input text.

(** Modelled from the spec: a disabled control does not invoke its action. *)
Definition button_click (button : ButtonProps) : Prog :=
  if disabled button then Done else onClick button.

(* ===================================================================== *)
(** ** Event loop *)
(* ===================================================================== *)

Inductive Toast : Type :=
| Success (text : string)
| Failure (text : string).

(** The mounted component together with a record of what it did to its
    collaborators. *)
Record State : Type := {
  props : SettingsFormState;          (* the [settings] prop *)
  isClearing : bool;                  (* [useState(false)] *)
  awaiting : list (Outcome -> Prog);  (* handlers suspended at the await *)
  changes : list Partial;             (* [onChange] calls, oldest first *)
  toasts : list Toast;                (* notifications, oldest first *)
  clearCalls : nat;                   (* clear operations started *)
  escaped : list Js.value             (* rejections no handler caught *)
}.

Definition mount (settings : SettingsFormState) : State :=
  {| props := settings; isClearing := false; awaiting := [];
     changes := []; toasts := []; clearCalls := 0; escaped := [] |}.

Definition exec (c : Command) (st : State) : State :=
  match c with
  | OnChange updates =>
      {| props := props st; isClearing := isClearing st;
         awaiting := awaiting st; changes := changes st ++ [updates];
         toasts := toasts st; clearCalls := clearCalls st;
         escaped := escaped st |}
  | SetIsClearing next =>
      {| props := props st; isClearing := next;
         awaiting := awaiting st; changes := changes st;
         toasts := toasts st; clearCalls := clearCalls st;
         escaped := escaped st |}
  | ToastSuccess text =>
      {| props := props st; isClearing := isClearing st;
         awaiting := awaiting st; changes := changes st;
         toasts := toasts st ++ [Success text]; clearCalls := clearCalls st;
         escaped := escaped st |}
  | ToastError text =>
      {| props := props st; isClearing := isClearing st;
         awaiting := awaiting st; changes := changes st;
         toasts := toasts st ++ [Failure text]; clearCalls := clearCalls st;
         escaped := escaped st |}
  end.

(** Runs a handler until it finishes or suspends.  At an await the clear
    operation is started and the rest of the handler is parked; a throw
    that reaches the end of the handler rejects the handler's own promise,
    which nobody observes. *)
Fixpoint run (p : Prog) (st : State) : State :=
  match p with
  | Done => st
  | Throw e =>
      {| props := props st; isClearing := isClearing st;
         awaiting := awaiting st; changes := changes st;
         toasts := toasts st; clearCalls := clearCalls st;
         escaped := escaped st ++ [e] |}
  | Do c k => run k (exec c st)
  | Await k =>
      {| props := props st; isClearing := isClearing st;
         awaiting := awaiting st ++ [k]; changes := changes st;
         toasts := toasts st; clearCalls := S (clearCalls st);
         escaped := escaped st |}
  end.

Inductive Event : Type :=
| Rerender (settings : SettingsFormState)  (* the parent passes new props *)
| Toggle (f : Flag.t)                      (* the user flips a toggle row *)
| EnterPath (text : string)                (* the user edits the path field *)
| ClickClear                               (* the user clicks the button *)
| Settle (i : nat) (o : Outcome).          (* a started clear call settles *)

Fixpoint extract {A : Type} (i : nat) (l : list A) {struct l}
  : option (A * list A) :=
  match l, i with
  | [], _ => None
  | x :: rest, 0 => Some (x, rest)
  | x :: rest, S j =>
      match extract j rest with
      | Some (y, rest') => Some (y, x :: rest')
      | None => None
      end
  end.

Section Loop.

Variable res : I18n.resources.

Definition view (st : State) : View := render res (props st) (isClearing st).

(** One turn of the event loop.  An event aimed at a control that is not
    rendered, or a settlement of a call that was never started, cannot
    occur; the state is then left as it is. *)
Definition step (st : State) (ev : Event) : State :=
  match ev with
  | Rerender settings =>
      {| props := settings; isClearing := isClearing st;
         awaiting := awaiting st; changes := changes st;
         toasts := toasts st; clearCalls := clearCalls st;
         escaped := escaped st |}
  | Toggle f => run (toggle_interact (toggleRow (view st) f)) st
  | EnterPath text =>
      match syncPanel (view st) with
      | Some panel => run (input_enter (pathInput panel) text) st
      | None => st
      end
  | ClickClear =>
      match syncPanel (view st) with
      | Some panel => run (button_click (clearButton panel)) st
      | None => st
      end
  | Settle i o =>
      match extract i (awaiting st) with
      | Some (k, rest) =>
          run (k o)
              {| props := props st; isClearing := isClearing st;
                 awaiting := rest; changes := changes st;
                 toasts := toasts st; clearCalls := clearCalls st;
                 escaped := escaped st |}
      | None => st
      end
  end.

Definition steps (st : State) (evs : list Event) : State :=
  fold_left step evs st.

Inductive reachable : State -> Prop :=
| reachable_mount settings : reachable (mount settings)
| reachable_step st ev : reachable st -> reachable (step st ev).

End Loop.

(* ===================================================================== *)
(** ** Vocabulary of the statements *)
(* ===================================================================== *)

(** [needle] occurs in [text]. *)
Definition contains (text needle : string) : Prop :=
  exists before after, text = before ++ needle ++ after.

(** The handler of the clear button below its await, as parked by [run]. *)
Definition resume (res : I18n.resources) (o : Outcome) : Prog :=
  try_finally
    (try_catch
       (match o with
        | Resolved => Done
        | Rejected reason => Throw reason
        end ;; eval (clear_success_text res) toast_success)
       (fun error => eval (clear_failed_text res error) toast_error))
    (setIsClearing false).

(** The clear button is on screen and can be clicked. *)
Definition clear_enabled (res : I18n.resources) (st : State) : bool :=
  match syncPanel (view res st) with
  | Some panel => negb (disabled (clearButton panel))
  | None => false
  end.

Definition is_settle (ev : Event) : bool :=
  match ev with
  | Settle _ _ => true
  | _ => false
  end.

Definition is_rerender (ev : Event) : bool :=
  match ev with
  | Rerender _ => true
  | _ => false
  end.

(** The events of the clear action: the click and the settlement. *)
Definition is_clear_action (ev : Event) : bool :=
  match ev with
  | ClickClear | Settle _ _ => true
  | _ => false
  end.

(** A whole clear action: the click, whatever else happens while the call
    is pending, and the settlement of the call with [o]. *)
Definition clear_then_settle (res : I18n.resources) (st : State)
  (meanwhile : list Event) (o : Outcome) : State :=
  step res (steps res (step res st ClickClear) meanwhile) (Settle 0 o).

(** The user types back into the path field exactly what it shows. *)
Definition reenter_shown_path (res : I18n.resources) (st : State) : State :=
  match syncPanel (view res st) with
  | Some panel => step res st (EnterPath (input_shown (pathInput panel)))
  | None => st
  end.

(** No locale table: every lookup falls back to its default value. *)
Definition no_resources : I18n.resources := fun _ => None.

Definition sync_on (path : option string) : SettingsFormState :=
  {| launchOnStartup := Some false;
     silentStartup := None;
     enableClaudePluginIntegration := Some true;
     enableVscodeClaudeSync := Some true;
     skipClaudeOnboarding := None;
     minimizeToTrayOnClose := true;
     vscodeSettingsPath := path |}.

(** An invocation is either not under way, or under way with exactly its
    own continuation parked. *)
Definition idle (st : State) : Prop :=
  isClearing st = false /\ awaiting st = [].

Definition busy (res : I18n.resources) (st : State) : Prop :=
  isClearing st = true /\ awaiting st = [resume res].

Definition consistent (res : I18n.resources) (st : State) : Prop :=
  idle st \/ busy res st.

(** The notification a settled clear call ends in; none when building its
    text throws. *)
Definition notification (res : I18n.resources) (o : Outcome) : option Toast :=
  match o with
  | Resolved => option_map Success (clear_success_text res)
  | Rejected reason => option_map Failure (clear_failed_text res reason)
  end.

Definition shown (res : I18n.resources) (o : Outcome) : list Toast :=
  match notification res o with
  | Some note => [note]
  | None => []
  end.

(** The state after the pending call of [st] has settled with [o]: the
    flag is cleared on both paths; the notification is shown, or else the
    conversion error leaves the handler. *)
Definition settled (res : I18n.resources) (st : State) (o : Outcome) : State :=
  match notification res o with
  | Some note =>
      {| props := props st; isClearing := false; awaiting := [];
         changes := changes st; toasts := toasts st ++ [note];
         clearCalls := clearCalls st; escaped := escaped st |}
  | None =>
      {| props := props st; isClearing := false; awaiting := [];
         changes := changes st; toasts := toasts st;
         clearCalls := clearCalls st;
         escaped := escaped st ++ [Js.type_error] |}
  end.


(** The user's edits: a toggle flipped, a path typed. *)
Definition is_edit (ev : Event) : bool :=
  match ev with
  | Toggle _ | EnterPath _ => true
  | _ => false
  end.

Definition is_click (ev : Event) : bool :=
  match ev with
  | ClickClear => true
  | _ => false
  end.

(** The shape of the updates the component asks its parent for: one key;
    a flag's key with a boolean, or the path's key with a text that is not
    empty or with [undefined]. *)
Definition single_key_update (u : Partial) : bool :=
  match u with
  | [(k, Js.VBool _)] => existsb (fun f => Flag.key f =? k) Flag.all
  | [(k, Js.VUndefined)] => k =? "vscodeSettingsPath"
  | [(k, Js.VString s)] => (k =? "vscodeSettingsPath") && negb (s =? "")
  | _ => false
  end.

(** The kinds of turn the loop takes from a consistent state: new props
    from the parent; one change request from a toggle or from the path
    field; the start of a clear call from an idle component that shows the
    sub-panel; the end of the pending call, see [settled]; or nothing at
    all (a control that is hidden or disabled, a settlement of nothing). *)
Inductive turn (res : I18n.resources) (st : State) : Event -> State -> Prop :=
| turn_rerender settings :
    turn res st (Rerender settings)
      {| props := settings; isClearing := isClearing st;
         awaiting := awaiting st; changes := changes st;
         toasts := toasts st; clearCalls := clearCalls st;
         escaped := escaped st |}
| turn_toggle f :
    turn res st (Toggle f)
      (exec (OnChange
               [(Flag.key f,
                 Js.VBool (negb (Js.truthy (read_flag (props st) f))))]) st)
| turn_enter text :
    enableVscodeClaudeSync (props st) = Some true ->
    turn res st (EnterPath text)
      (exec (OnChange
               [("vscodeSettingsPath",
                 if text =? "" then Js.VUndefined else Js.VString text)]) st)
| turn_start :
    idle st ->
    enableVscodeClaudeSync (props st) = Some true ->
    turn res st ClickClear
      {| props := props st; isClearing := true;
         awaiting := [resume res]; changes := changes st;
         toasts := toasts st; clearCalls := S (clearCalls st);
         escaped := escaped st |}
| turn_finish o :
    busy res st ->
    turn res st (Settle 0 o) (settled res st o)
| turn_ignored ev :
    is_rerender ev = false ->
    turn res st ev st.

(** Texts without the characters a lookup may treat specially in a
    parameter: the ones its value escaping rewrites ([&], [<], [>], the two
    quotes, [/]) and the ones of its own syntax ([{], [}], [$]).  On such a
    text it makes no difference whether the lookup escapes values. *)
Definition plain_char (c : ascii) : bool :=
  negb (existsb (Ascii.eqb c)
          ["&"%char; "<"%char; ">"%char; "'"%char; Ascii.ascii_of_nat 34;
           "/"%char; "{"%char; "}"%char; "$"%char]).

Fixpoint plain_text (s : string) : bool :=
  match s with
  | "" => true
  | String c rest => plain_char c && plain_text rest
  end.

(* ===================================================================== *)
(** ** Strings and interpolation *)
(* ===================================================================== *)

Lemma append_empty_r (s : string) : s ++ "" = s.
Proof. induction s as [|c s IH]; simpl; [reflexivity | now rewrite IH]. Qed.

Lemma append_assoc (a b c : string) : (a ++ b) ++ c = a ++ (b ++ c).
Proof. induction a as [|x a IH]; simpl; [reflexivity | now rewrite IH]. Qed.

Lemma contains_refl (s : string) : contains s s.
Proof. exists "", "". simpl. now rewrite append_empty_r. Qed.

Lemma contains_prepend (p text needle : string) :
  contains text needle -> contains (p ++ text) needle.
Proof.
  intros (b & a & ->). exists (p ++ b), a. now rewrite append_assoc.
Qed.

Lemma contains_append (text q needle : string) :
  contains text needle -> contains (text ++ q) needle.
Proof.
  intros (b & a & ->). exists b, (a ++ q). now rewrite !append_assoc.
Qed.

Lemma concat_cons (x : string) (l : list string) :
  String.concat "" (x :: l) = x ++ String.concat "" l.
Proof.
  destruct l as [|y l]; simpl; [now rewrite append_empty_r | reflexivity].
Qed.

Lemma sequence_cons {A : Type} (x : option A) (l : list (option A))
  (ys : list A) :
  Js.sequence (x :: l) = Some ys ->
  exists y rest, x = Some y /\ Js.sequence l = Some rest /\ ys = y :: rest.
Proof.
  cbn. destruct x as [y|]; [|discriminate].
  destruct (Js.sequence l) as [rest|]; [|discriminate].
  intros [= <-]. now exists y, rest.
Qed.

(** A placeholder that has a parameter shows that parameter's string form
    in the result. *)
Lemma fill_mentions (ps : I18n.params) (name : string) (v : Js.value)
  (segs : list I18n.segment) (parts : list string) :
  I18n.find name ps = Some v ->
  I18n.mentions name segs = true ->
  Js.sequence (map (I18n.fill ps) segs) = Some parts ->
  exists s, Js.to_string v = Some s /\ contains (String.concat "" parts) s.
Proof.
  intros Hfind. revert parts.
  induction segs as [|seg segs IH]; intros parts; [discriminate|].
  rewrite map_cons. intros Hm Hseq.
  apply sequence_cons in Hseq as (part & rest & Hpart & Hrest & ->).
  rewrite concat_cons.
  destruct seg as [text | n]; cbn [I18n.mentions] in Hm.
  - destruct (IH rest Hm Hrest) as (s & Hs & Hc).
    exists s. split; [exact Hs | now apply contains_prepend].
  - destruct (String.eqb_spec n name) as [-> | _]; cbn [orb] in Hm.
    + cbn [I18n.fill] in Hpart. rewrite Hfind in Hpart.
      exists part. split; [exact Hpart|].
      apply contains_append, contains_refl.
    + destruct (IH rest Hm Hrest) as (s & Hs & Hc).
      exists s. split; [exact Hs | now apply contains_prepend].
Qed.

Lemma t_contains (res : I18n.resources) (key dflt name text : string)
  (ps : I18n.params) (v : Js.value) :
  I18n.find name ps = Some v ->
  I18n.mentions name (I18n.parse (I18n.template res key dflt)) = true ->
  I18n.t res key dflt ps = Some text ->
  exists s, Js.to_string v = Some s /\ contains text s.
Proof.
  intros Hf Hm. unfold I18n.t, I18n.interpolate.
  destruct (Js.sequence _) as [parts|] eqn:Hseq; [|discriminate].
  intros [= <-]. apply (fill_mentions ps name v _ parts Hf Hm Hseq).
Qed.

(** The lookup throws only when the conversion of a parameter does. *)
Lemma fill_defined (ps : I18n.params) (segs : list I18n.segment) :
  (forall name v, I18n.find name ps = Some v -> Js.to_string v <> None) ->
  exists parts, Js.sequence (map (I18n.fill ps) segs) = Some parts.
Proof.
  intros Hps. induction segs as [|seg segs [parts IH]]; [now exists []|].
  rewrite map_cons. cbn [Js.sequence]. rewrite IH.
  destruct seg as [text | n]; cbn [I18n.fill]; [eauto|].
  destruct (I18n.find n ps) as [v|] eqn:Hf; [|eauto].
  specialize (Hps n v Hf). destruct (Js.to_string v); [eauto | contradiction].
Qed.

Lemma t_defined (res : I18n.resources) (key dflt : string)
  (ps : I18n.params) :
  (forall name v, I18n.find name ps = Some v -> Js.to_string v <> None) ->
  exists text, I18n.t res key dflt ps = Some text.
Proof.
  intros Hps. unfold I18n.t, I18n.interpolate.
  destruct (fill_defined ps (I18n.parse (I18n.template res key dflt)) Hps)
    as [parts ->].
  cbn. eauto.
Qed.

Lemma t_no_params (res : I18n.resources) (key dflt : string) :
  exists text, I18n.t res key dflt [] = Some text.
Proof. apply t_defined. discriminate. Qed.

Lemma t_string_param (res : I18n.resources) (key dflt name s : string) :
  exists text, I18n.t res key dflt [(name, Js.VString s)] = Some text.
Proof.
  apply t_defined. intros n v. cbn.
  destruct (name =? n); [|discriminate]. intros [= <-]. discriminate.
Qed.

(* ===================================================================== *)
(** ** The clear handler, step by step *)
(* ===================================================================== *)

Section ClearHandler.

Variable res : I18n.resources.

Lemma handleClearVscodeConfig_shape :
  handleClearVscodeConfig res = Do (SetIsClearing true) (Await (resume res)).
Proof. reflexivity. Qed.

Lemma clear_success_text_defined :
  exists text, clear_success_text res = Some text.
Proof. apply t_no_params. Qed.

(** Whatever the outcome, the parked handler clears the flag.  Before that
    it shows the notification of the outcome; when building the text of the
    failure notification throws, it shows none and the error leaves the
    handler after the flag is cleared. *)
Lemma run_resume (o : Outcome) (st : State) :
  run (resume res o) st
  = match notification res o with
    | Some note =>
        {| props := props st; isClearing := false; awaiting := awaiting st;
           changes := changes st; toasts := toasts st ++ [note];
           clearCalls := clearCalls st; escaped := escaped st |}
    | None =>
        {| props := props st; isClearing := false; awaiting := awaiting st;
           changes := changes st; toasts := toasts st;
           clearCalls := clearCalls st;
           escaped := escaped st ++ [Js.type_error] |}
    end.
Proof.
  destruct o as [|reason]; unfold resume, notification.
  - destruct clear_success_text_defined as [text ->]. reflexivity.
  - cbn [seq try_catch]. destruct (clear_failed_text res reason); reflexivity.
Qed.

Lemma run_props (p : Prog) (st : State) : props (run p st) = props st.
Proof.
  revert st. induction p as [| e | c k IH | k IH]; intros st; simpl;
    try reflexivity.
  rewrite IH. destruct c; reflexivity.
Qed.

End ClearHandler.

(* ===================================================================== *)
(** ** One turn of the loop *)
(* ===================================================================== *)

Section Turns.

Variable res : I18n.resources.

Ltac on_panel st :=
  unfold clear_enabled, reenter_shown_path, step, view, render;
  cbn [syncPanel clearButton pathInput disabled onClick button_click
       input_enter input_onChange];
  destruct (Js.truthy (Js.of_bool (enableVscodeClaudeSync (props st))));
  cbn [syncPanel clearButton pathInput disabled onClick button_click
       input_enter input_onChange negb].

Lemma step_toggle (st : State) (f : Flag.t) :
  step res st (Toggle f)
  = exec (OnChange
            [(Flag.key f,
              Js.VBool (negb (checked (toggleRow (view res st) f))))]) st.
Proof. destruct f; reflexivity. Qed.

Lemma step_enter_path (st : State) (text : string) :
  step res st (EnterPath text)
  = match syncPanel (view res st) with
    | Some _ =>
        exec (OnChange
                [("vscodeSettingsPath",
                  if text =? "" then Js.VUndefined else Js.VString text)]) st
    | None => st
    end.
Proof.
  on_panel st; [|reflexivity].
  unfold Js.or, Js.truthy. destruct (text =? ""); reflexivity.
Qed.

Lemma step_click_enabled (st : State) :
  clear_enabled res st = true ->
  step res st ClickClear
  = {| props := props st; isClearing := true;
       awaiting := awaiting st ++ [resume res]; changes := changes st;
       toasts := toasts st; clearCalls := S (clearCalls st);
       escaped := escaped st |}.
Proof.
  on_panel st; [|discriminate].
  destruct (isClearing st); [discriminate|]. intros _.
  rewrite handleClearVscodeConfig_shape. reflexivity.
Qed.

Lemma step_click_disabled (st : State) :
  clear_enabled res st = false -> step res st ClickClear = st.
Proof.
  on_panel st; [|reflexivity].
  destruct (isClearing st); [reflexivity | discriminate].
Qed.

Lemma clear_enabled_flag (st : State) :
  isClearing st = true -> clear_enabled res st = false.
Proof. intros H. on_panel st; [now rewrite H | reflexivity]. Qed.

Lemma step_settle_parked (st : State) (o : Outcome) :
  awaiting st = [resume res] ->
  step res st (Settle 0 o) = settled res st o.
Proof.
  intros H. unfold step. rewrite H. cbn [extract].
  rewrite run_resume. unfold settled.
  destruct (notification res o); reflexivity.
Qed.

Lemma settled_idle (st : State) (o : Outcome) : idle (settled res st o).
Proof.
  unfold settled. destruct (notification res o); split; reflexivity.
Qed.

Lemma settled_fields (st : State) (o : Outcome) :
  props (settled res st o) = props st /\
  changes (settled res st o) = changes st /\
  clearCalls (settled res st o) = clearCalls st /\
  toasts (settled res st o) = (toasts st ++ shown res o)%list /\
  escaped (settled res st o)
  = (escaped st ++
     match notification res o with
     | Some _ => []
     | None => [Js.type_error]
     end)%list.
Proof.
  unfold settled, shown. destruct (notification res o); cbn;
    rewrite ?app_nil_r; repeat split.
Qed.

Lemma step_settle_none (st : State) (i : nat) (o : Outcome) :
  extract i (awaiting st) = None -> step res st (Settle i o) = st.
Proof. intros H. unfold step. now rewrite H. Qed.

(** Between the click and the settlement nothing the user or the parent
    does touches the flag, the parked handler, the notifications, the
    count of started calls or the escaped rejections. *)
Lemma step_meanwhile (st : State) (ev : Event) :
  is_settle ev = false ->
  isClearing st = true ->
  let st' := step res st ev in
  isClearing st' = true /\ awaiting st' = awaiting st /\
  toasts st' = toasts st /\ clearCalls st' = clearCalls st /\
  escaped st' = escaped st.
Proof.
  intros Hev Hflag. destruct ev as [s | f | text | | i o]; cbn zeta.
  - cbn. auto.
  - rewrite step_toggle. cbn. auto.
  - rewrite step_enter_path. destruct (syncPanel (view res st)); cbn; auto.
  - rewrite step_click_disabled by now apply clear_enabled_flag. auto.
  - discriminate.
Qed.

Lemma steps_meanwhile (meanwhile : list Event) (st : State) :
  forallb (fun ev => negb (is_settle ev)) meanwhile = true ->
  isClearing st = true ->
  let st' := steps res st meanwhile in
  isClearing st' = true /\ awaiting st' = awaiting st /\
  toasts st' = toasts st /\ clearCalls st' = clearCalls st /\
  escaped st' = escaped st.
Proof.
  revert st. induction meanwhile as [|ev evs IH]; intros st Hall Hflag.
  - cbn. auto.
  - cbn [forallb] in Hall. apply andb_true_iff in Hall as [Hev Hall].
    apply negb_true_iff in Hev.
    destruct (step_meanwhile st ev Hev Hflag) as (F & A & T & C & E).
    destruct (IH (step res st ev) Hall F) as (F' & A' & T' & C' & E').
    cbn zeta. unfold steps in *. cbn [fold_left].
    rewrite F', A', T', C', E'. auto.
Qed.

(** The invariant of the loop. *)
Lemma consistent_mount (settings : SettingsFormState) :
  consistent res (mount settings).
Proof. left; split; reflexivity. Qed.

Lemma consistent_step (st : State) (ev : Event) :
  consistent res st -> consistent res (step res st ev).
Proof.
  intros Hst. destruct ev as [s | f | text | | i o].
  - exact Hst.
  - rewrite step_toggle. exact Hst.
  - rewrite step_enter_path.
    destruct (syncPanel (view res st)); assumption.
  - destruct (clear_enabled res st) eqn:Hen.
    + rewrite (step_click_enabled st Hen).
      destruct Hst as [[_ Hq] | [Hflag _]].
      * right. split; cbn; [reflexivity|]. now rewrite Hq.
      * now rewrite (clear_enabled_flag st Hflag) in Hen.
    + rewrite (step_click_disabled st Hen). assumption.
  - destruct Hst as [[Hflag Hq] | [Hflag Hq]].
    + rewrite step_settle_none by (rewrite Hq; reflexivity).
      left; split; assumption.
    + destruct i as [|i].
      * rewrite (step_settle_parked st o Hq). left. apply settled_idle.
      * rewrite step_settle_none by (rewrite Hq; destruct i; reflexivity).
        right; split; assumption.
Qed.

Lemma consistent_steps (evs : list Event) (st : State) :
  consistent res st -> consistent res (steps res st evs).
Proof.
  revert st. induction evs as [|ev evs IH]; intros st H; [exact H|].
  apply IH, consistent_step, H.
Qed.

Lemma consistent_trace (settings : SettingsFormState) (evs : list Event) :
  consistent res (steps res (mount settings) evs).
Proof. apply consistent_steps, consistent_mount. Qed.

(** A whole clear action, from an enabled button. *)
Lemma clear_then_settle_spec (st : State) (meanwhile : list Event)
  (o : Outcome) :
  consistent res st ->
  clear_enabled res st = true ->
  forallb (fun ev => negb (is_settle ev)) meanwhile = true ->
  let pending := steps res (step res st ClickClear) meanwhile in
  let st' := clear_then_settle res st meanwhile o in
  isClearing pending = true /\
  clear_enabled res pending = false /\
  isClearing st' = false /\ awaiting st' = [] /\
  clearCalls st' = S (clearCalls st) /\
  toasts st' = (toasts st ++ shown res o)%list /\
  escaped st'
  = (escaped st ++
     match notification res o with
     | Some _ => []
     | None => [Js.type_error]
     end)%list.
Proof.
  intros Hst Hen Hmid. cbn zeta. unfold clear_then_settle.
  assert (Hq : awaiting st = []).
  { destruct Hst as [[_ Hq] | [Hflag _]]; [exact Hq|].
    now rewrite (clear_enabled_flag st Hflag) in Hen. }
  pose proof (step_click_enabled st Hen) as Hclick.
  set (st1 := step res st ClickClear) in *.
  assert (Hflag1 : isClearing st1 = true) by now rewrite Hclick.
  destruct (steps_meanwhile meanwhile st1 Hmid Hflag1) as (F & A & T & C & E).
  set (st2 := steps res st1 meanwhile) in *.
  assert (Hq2 : awaiting st2 = [resume res]).
  { rewrite A, Hclick. cbn. now rewrite Hq. }
  rewrite (step_settle_parked st2 o Hq2).
  destruct (settled_idle st2 o) as [F' A'].
  destruct (settled_fields st2 o) as (_ & _ & C' & T' & E').
  rewrite C', T', E', T, C, E, Hclick. cbn.
  repeat split; try assumption.
  apply clear_enabled_flag, F.
Qed.

(** What a rendered sync sub-panel holds. *)
Lemma view_panel (st : State) (panel : SyncPanel) :
  syncPanel (view res st) = Some panel ->
  enableVscodeClaudeSync (props st) = Some true /\
  disabled (clearButton panel) = isClearing st /\
  value (pathInput panel)
  = Js.coalesce (Js.of_string (vscodeSettingsPath (props st))) (Js.VString "").
Proof.
  unfold view, render. cbn [syncPanel].
  destruct (enableVscodeClaudeSync (props st)) as [[|]|]; cbn;
    try discriminate.
  intros [= <-]. cbn. auto.
Qed.

Lemma view_no_panel (st : State) :
  syncPanel (view res st) = None ->
  enableVscodeClaudeSync (props st) <> Some true.
Proof.
  unfold view, render. cbn [syncPanel]. intros H E. rewrite E in H.
  discriminate.
Qed.

End Turns.

(* ===================================================================== *)
(** ** Properties of the component *)
(* ===================================================================== *)

(** The failure text of a rejection that carries a string message. *)
Lemma clear_failed_text_message (res : I18n.resources) (reason : Js.value)
  (message : string) :
  Js.optional_message reason = Js.VString message ->
  clear_failed_text res reason
  = I18n.t res clearFailedKey clearFailedDefault
      [("error", Js.VString message)].
Proof.
  intros H. unfold clear_failed_text, error_param. rewrite H. reflexivity.
Qed.

(** The failure text of a rejection without a message. *)
Lemma clear_failed_text_fallback (res : I18n.resources) (reason : Js.value)
  (s : string) :
  Js.nullish (Js.optional_message reason) = true ->
  Js.to_string reason = Some s ->
  clear_failed_text res reason
  = I18n.t res clearFailedKey clearFailedDefault [("error", Js.VString s)].
Proof.
  intros Hn Hs. unfold clear_failed_text, error_param. rewrite Hn, Hs.
  reflexivity.
Qed.

(** C1.  When the clear operation rejects with an error whose message is
    "disk full", the rejection is caught: nothing escapes the handler, no
    further clear call is started and none stays pending; exactly one
    notification is added, a failure whose text contains "disk full"; and
    the flag is cleared, so a rendered button is enabled again.  The
    template in force for the failure key (the locale's, or the default of
    the source) is assumed to keep the [{{error}}] placeholder. *)
Theorem clear_rejection_disk_full :
  forall (res : I18n.resources) (settings : SettingsFormState)
         (before meanwhile : list Event) (reason : Js.value),
    let st := steps res (mount settings) before in
    clear_enabled res st = true ->
    forallb (fun ev => negb (is_settle ev)) meanwhile = true ->
    Js.optional_message reason = Js.VString "disk full" ->
    I18n.mentions "error"
      (I18n.parse (I18n.template res clearFailedKey clearFailedDefault))
    = true ->
    let st' := clear_then_settle res st meanwhile (Rejected reason) in
    (exists text,
        toasts st' = (toasts st ++ [Failure text])%list /\
        contains text "disk full") /\
    escaped st' = escaped st /\
    clearCalls st' = S (clearCalls st) /\
    awaiting st' = [] /\
    isClearing st' = false /\
    (forall panel, syncPanel (view res st') = Some panel ->
                   disabled (clearButton panel) = false).
Proof.
  intros res settings before meanwhile reason st Hen Hmid Hmsg Htpl st'.
  destruct (clear_then_settle_spec res st meanwhile (Rejected reason)
              (consistent_trace res settings before) Hen Hmid)
    as (_ & _ & F & A & C & T & E).
  fold st' in F, A, C, T, E.
  pose proof (clear_failed_text_message res reason "disk full" Hmsg) as Htext.
  destruct (t_string_param res clearFailedKey clearFailedDefault
              "error" "disk full") as [text Ht].
  rewrite Ht in Htext.
  unfold shown, notification in T. unfold notification in E.
  rewrite Htext in T, E. cbn in T, E. rewrite app_nil_r in E.
  split; [|repeat split; try assumption].
  - exists text. split; [exact T|].
    destruct (t_contains res clearFailedKey clearFailedDefault "error" text
                [("error", Js.VString "disk full")]
                (Js.VString "disk full") eq_refl Htpl Ht)
      as (s & [= <-] & Hc).
    exact Hc.
  - intros panel Hp. destruct (view_panel res st' panel Hp) as (_ & D & _).
    now rewrite D.
Qed.

(** C3.  When the clear operation resolves, exactly one notification is
    added and it is the success notification (so no failure notification);
    nothing escapes, exactly one clear call was started and none stays
    pending.  The control is disabled from the click to the settlement and
    enabled again after it: while the call is pending the flag is set and
    the button cannot be clicked, and afterwards the flag is cleared and a
    rendered button is enabled. *)
Theorem clear_success_notifies_once :
  forall (res : I18n.resources) (settings : SettingsFormState)
         (before meanwhile : list Event),
    let st := steps res (mount settings) before in
    clear_enabled res st = true ->
    forallb (fun ev => negb (is_settle ev)) meanwhile = true ->
    let pending := steps res (step res st ClickClear) meanwhile in
    let st' := clear_then_settle res st meanwhile Resolved in
    (exists text,
        I18n.t res clearSuccessKey clearSuccessDefault [] = Some text /\
        toasts st' = (toasts st ++ [Success text])%list) /\
    escaped st' = escaped st /\
    clearCalls st' = S (clearCalls st) /\
    awaiting st' = [] /\
    isClearing pending = true /\
    clear_enabled res pending = false /\
    isClearing st' = false /\
    (forall panel, syncPanel (view res st') = Some panel ->
                   disabled (clearButton panel) = false).
Proof.
  intros res settings before meanwhile st Hen Hmid pending st'.
  destruct (clear_then_settle_spec res st meanwhile Resolved
              (consistent_trace res settings before) Hen Hmid)
    as (P & D & F & A & C & T & E).
  fold st' in F, A, C, T, E. fold pending in P, D.
  destruct (clear_success_text_defined res) as [text Ht].
  unfold shown, notification in T. unfold notification in E.
  rewrite Ht in T, E. cbn in T, E. rewrite app_nil_r in E.
  split; [|repeat split; try assumption].
  - exists text. split; [exact Ht | exact T].
  - intros panel Hp. destruct (view_panel res st' panel Hp) as (_ & B & _).
    now rewrite B.
Qed.

(** C2.  At any point of any run of the component at most one clear call
    is in flight; while one is, the flag is set, a rendered button is
    disabled, and a click on it changes nothing: in particular it starts
    no second call. *)
Theorem no_reentrant_clear :
  forall (res : I18n.resources) (settings : SettingsFormState)
         (evs : list Event),
    let st := steps res (mount settings) evs in
    length (awaiting st) <= 1 /\
    (awaiting st <> [] -> isClearing st = true) /\
    (isClearing st = true ->
     clear_enabled res st = false /\
     (forall panel, syncPanel (view res st) = Some panel ->
                    disabled (clearButton panel) = true) /\
     step res st ClickClear = st).
Proof.
  intros res settings evs st.
  pose proof (consistent_trace res settings evs) as Hst. fold st in Hst.
  split; [|split].
  - destruct Hst as [[_ Hq] | [_ Hq]]; rewrite Hq; cbn; lia.
  - intros Hne. destruct Hst as [[_ Hq] | [Hflag _]];
      [contradiction | exact Hflag].
  - intros Hflag. pose proof (clear_enabled_flag res st Hflag) as Hen.
    split; [exact Hen | split].
    + intros panel Hp. destruct (view_panel res st panel Hp) as (_ & D & _).
      now rewrite D.
    + apply step_click_disabled, Hen.
Qed.

(** C4.  Whenever a started clear call settles, by resolving or by
    rejecting with any reason, the flag is false afterwards and nothing
    stays pending. *)
Theorem flag_reset_on_every_exit :
  forall (res : I18n.resources) (settings : SettingsFormState)
         (evs : list Event) (i : nat) (o : Outcome),
    let st := steps res (mount settings) evs in
    i < length (awaiting st) ->
    isClearing (step res st (Settle i o)) = false /\
    awaiting (step res st (Settle i o)) = [].
Proof.
  intros res settings evs i o st Hi.
  pose proof (consistent_trace res settings evs) as Hst. fold st in Hst.
  destruct Hst as [[_ Hq] | [_ Hq]].
  - rewrite Hq in Hi. cbn in Hi. lia.
  - rewrite Hq in Hi. cbn in Hi. assert (i = 0) as -> by lia.
    rewrite (step_settle_parked res st o Hq). apply settled_idle.
Qed.

(** C5.  For each of the six flags, an interaction with its toggle row
    adds exactly one call of the change callback; the update has the
    flag's key alone, set to the negation of the value the row showed,
    which is the truthiness of the flag in the settings.  The row's
    handler itself passes on whatever value the row reports, under that
    one key. *)
Theorem toggle_reports_negation :
  forall (res : I18n.resources) (st : State) (f : Flag.t),
    let row := toggleRow (view res st) f in
    checked row = Js.truthy (read_flag (props st) f) /\
    (forall v, onCheckedChange row v = onChange [(Flag.key f, Js.VBool v)]) /\
    changes (step res st (Toggle f))
    = (changes st ++ [[(Flag.key f, Js.VBool (negb (checked row)))]])%list.
Proof.
  intros res st f row. split; [|split].
  - destruct f; reflexivity.
  - destruct f; reflexivity.
  - rewrite step_toggle. reflexivity.
Qed.

(** C6.  With the sub-panel on screen, entering a text into the path field
    adds one call of the change callback whose single key
    [vscodeSettingsPath] is the text when it is not empty and [undefined]
    when it is. *)
Theorem path_entry_normalises_empty :
  forall (res : I18n.resources) (st : State) (text : string),
    syncPanel (view res st) <> None ->
    changes (step res st (EnterPath text))
    = (changes st ++
       [[("vscodeSettingsPath",
          if text =? "" then Js.VUndefined else Js.VString text)]])%list.
Proof.
  intros res st text Hp. rewrite step_enter_path.
  destruct (syncPanel (view res st)); [reflexivity | contradiction].
Qed.

(** C7.  The sync sub-panel is rendered exactly when
    [enableVscodeClaudeSync] is [true]. *)
Theorem sync_panel_iff_flag :
  forall (res : I18n.resources) (settings : SettingsFormState)
         (clearing : bool),
    syncPanel (render res settings clearing) <> None
    <-> enableVscodeClaudeSync settings = Some true.
Proof.
  intros res settings clearing. unfold render. cbn [syncPanel].
  destruct (enableVscodeClaudeSync settings) as [[|]|]; cbn;
    split; congruence.
Qed.

(** C8.  No turn of the component changes the settings record it was
    given: only the parent's re-render replaces it.  The clear action, its
    click and its settlement alike, never calls the change callback. *)
Theorem settings_never_modified :
  forall (res : I18n.resources) (settings : SettingsFormState)
         (evs : list Event) (ev : Event),
    let st := steps res (mount settings) evs in
    (is_rerender ev = false -> props (step res st ev) = props st) /\
    (is_clear_action ev = true -> changes (step res st ev) = changes st).
Proof.
  intros res settings evs ev st.
  pose proof (consistent_trace res settings evs) as Hc. fold st in Hc.
  split.
  - intros Hev. destruct ev as [s | f | text | | i o]; [discriminate | | | |].
    + apply run_props.
    + unfold step. destruct (syncPanel (view res st)); [apply run_props|].
      reflexivity.
    + unfold step. destruct (syncPanel (view res st)); [apply run_props|].
      reflexivity.
    + unfold step. destruct (extract i (awaiting st)) as [[k rest]|];
        [|reflexivity].
      now rewrite run_props.
  - intros Hev.
    destruct ev as [s | f | text | | i o]; try discriminate.
    + destruct (clear_enabled res st) eqn:Hen.
      * now rewrite (step_click_enabled res st Hen).
      * now rewrite (step_click_disabled res st Hen).
    + destruct Hc as [[_ Hq] | [_ Hq]].
      * rewrite step_settle_none by (rewrite Hq; reflexivity). reflexivity.
      * destruct i as [|i].
        -- rewrite (step_settle_parked res st o Hq).
           apply (settled_fields res st o).
        -- rewrite step_settle_none by (rewrite Hq; destruct i; reflexivity).
           reflexivity.
Qed.

(** C9, as amended.  After a rejection the flag is cleared, whatever the
    value.  When the value has no message (the read [error?.message] is
    [undefined] or [null]) and its string conversion succeeds, exactly one
    failure notification is added, built from the failure key with that
    string as the [error] parameter, and nothing escapes.  More generally
    exactly one failure notification is added for every rejection value for
    which the text can be built; when building it throws, no notification
    is added and the conversion error leaves the handler. *)
Theorem rejection_without_message_falls_back :
  forall (res : I18n.resources) (settings : SettingsFormState)
         (before meanwhile : list Event) (reason : Js.value),
    let st := steps res (mount settings) before in
    clear_enabled res st = true ->
    forallb (fun ev => negb (is_settle ev)) meanwhile = true ->
    let st' := clear_then_settle res st meanwhile (Rejected reason) in
    isClearing st' = false /\
    (forall s,
        Js.nullish (Js.optional_message reason) = true ->
        Js.to_string reason = Some s ->
        exists text,
          I18n.t res clearFailedKey clearFailedDefault
            [("error", Js.VString s)] = Some text /\
          toasts st' = (toasts st ++ [Failure text])%list /\
          escaped st' = escaped st) /\
    (forall text,
        clear_failed_text res reason = Some text ->
        toasts st' = (toasts st ++ [Failure text])%list /\
        escaped st' = escaped st) /\
    (clear_failed_text res reason = None ->
     toasts st' = toasts st /\
     escaped st' = (escaped st ++ [Js.type_error])%list).
Proof.
  intros res settings before meanwhile reason st Hen Hmid st'.
  destruct (clear_then_settle_spec res st meanwhile (Rejected reason)
              (consistent_trace res settings before) Hen Hmid)
    as (_ & _ & F & _ & _ & T & E).
  fold st' in F, T, E. unfold shown, notification in T.
  unfold notification in E.
  assert (Hsome : forall text,
             clear_failed_text res reason = Some text ->
             toasts st' = (toasts st ++ [Failure text])%list /\
             escaped st' = escaped st).
  { intros text Ht. rewrite Ht in T, E. cbn in T, E.
    rewrite app_nil_r in E. split; assumption. }
  split; [exact F|]. split; [|split; [exact Hsome|]].
  - intros s Hn Hs.
    destruct (t_string_param res clearFailedKey clearFailedDefault "error" s)
      as [text Ht].
    exists text. split; [exact Ht|]. apply Hsome.
    now rewrite (clear_failed_text_fallback res reason s Hn Hs).
  - intros Hnone. rewrite Hnone in T, E. cbn in T, E.
    rewrite app_nil_r in T. split; assumption.
Qed.

(** C9, as first stated, fails on a rejection value whose string conversion
    throws, such as the object [{"toString": "x"}]: it has no message, the
    fallback [String(error)] throws inside the catch block, no notification
    is added and the error leaves the handler. *)
Lemma rejection_unconvertible_no_notification :
  let reason := Js.VObject [("toString", Js.VString "x")] in
  let st := mount (sync_on None) in
  let st' := clear_then_settle no_resources st [] (Rejected reason) in
  Js.nullish (Js.optional_message reason) = true /\
  Js.to_string reason = None /\
  toasts st' = [] /\
  escaped st' = [Js.type_error].
Proof. repeat split. Qed.

(** C10, as amended.  With the sub-panel on screen: an absent path is shown
    as the empty text; entering the empty text asks for [undefined]; typing
    back what the field shows asks for the stored value whenever that value
    is not the empty string, and for [undefined] when it is. *)
Theorem path_roundtrip_except_empty :
  forall (res : I18n.resources) (st : State) (panel : SyncPanel),
    syncPanel (view res st) = Some panel ->
    (vscodeSettingsPath (props st) = None ->
     input_shown (pathInput panel) = "") /\
    changes (step res st (EnterPath ""))
    = (changes st ++ [[("vscodeSettingsPath", Js.VUndefined)]])%list /\
    (vscodeSettingsPath (props st) <> Some "" ->
     changes (reenter_shown_path res st)
     = (changes st ++
        [[("vscodeSettingsPath",
           Js.of_string (vscodeSettingsPath (props st)))]])%list) /\
    (vscodeSettingsPath (props st) = Some "" ->
     changes (reenter_shown_path res st)
     = (changes st ++ [[("vscodeSettingsPath", Js.VUndefined)]])%list).
Proof.
  intros res st panel Hp.
  destruct (view_panel res st panel Hp) as (_ & _ & V).
  assert (Hshown : input_shown (pathInput panel)
                   = match vscodeSettingsPath (props st) with
                     | Some s => s
                     | None => ""
                     end).
  { unfold input_shown. rewrite V.
    destruct (vscodeSettingsPath (props st)); reflexivity. }
  assert (Hre : changes (reenter_shown_path res st)
                = (changes st ++
                   [[("vscodeSettingsPath",
                      if input_shown (pathInput panel) =? ""
                      then Js.VUndefined
                      else Js.VString (input_shown (pathInput panel)))]])%list).
  { unfold reenter_shown_path. rewrite Hp, step_enter_path, Hp.
    reflexivity. }
  split; [|split; [|split]].
  - intros E. now rewrite Hshown, E.
  - rewrite step_enter_path, Hp. reflexivity.
  - intros Hne. rewrite Hre, Hshown.
    destruct (vscodeSettingsPath (props st)) as [s|]; [|reflexivity].
    destruct (String.eqb_spec s "") as [-> | _]; [congruence | reflexivity].
  - intros E. rewrite Hre, Hshown, E. reflexivity.
Qed.

(** C10, as first stated, fails on a stored empty string: the field shows
    the empty text, and typing it back asks for [undefined], not for the
    empty string that was stored. *)
Lemma path_roundtrip_loses_empty_string :
  let st := mount (sync_on (Some "")) in
  changes (reenter_shown_path no_resources st)
  = [[("vscodeSettingsPath", Js.VUndefined)]] /\
  changes (reenter_shown_path no_resources st)
  <> (changes st ++
      [[("vscodeSettingsPath",
         Js.of_string (vscodeSettingsPath (props st)))]])%list.
Proof. split; [reflexivity | discriminate]. Qed.

(* ===================================================================== *)
(** ** The properties at concrete inputs *)
(* ===================================================================== *)

Lemma clear_rejection_disk_full_witness :
  let st := mount (sync_on None) in
  let st' :=
    clear_then_settle no_resources st [ClickClear; Toggle Flag.silentStartup]
      (Rejected (Js.VError "Error" "disk full")) in
  (exists text,
      toasts st' = (toasts st ++ [Failure text])%list /\
      contains text "disk full") /\
  escaped st' = escaped st /\
  clearCalls st' = S (clearCalls st) /\
  awaiting st' = [] /\
  isClearing st' = false /\
  (forall panel, syncPanel (view no_resources st') = Some panel ->
                 disabled (clearButton panel) = false).
Proof.
  apply (clear_rejection_disk_full no_resources (sync_on None) []
           [ClickClear; Toggle Flag.silentStartup]
           (Js.VError "Error" "disk full")); reflexivity.
Defined.

Lemma clear_success_notifies_once_witness :
  let st := steps no_resources (mount (sync_on None)) [EnterPath "foo"] in
  let pending :=
    steps no_resources (step no_resources st ClickClear) [ClickClear] in
  let st' := clear_then_settle no_resources st [ClickClear] Resolved in
  (exists text,
      I18n.t no_resources clearSuccessKey clearSuccessDefault [] = Some text /\
      toasts st' = (toasts st ++ [Success text])%list) /\
  escaped st' = escaped st /\
  clearCalls st' = S (clearCalls st) /\
  awaiting st' = [] /\
  isClearing pending = true /\
  clear_enabled no_resources pending = false /\
  isClearing st' = false /\
  (forall panel, syncPanel (view no_resources st') = Some panel ->
                 disabled (clearButton panel) = false).
Proof.
  apply (clear_success_notifies_once no_resources (sync_on None)
           [EnterPath "foo"] [ClickClear]); reflexivity.
Defined.

Lemma no_reentrant_clear_witness :
  let st := steps no_resources (mount (sync_on None)) [ClickClear] in
  isClearing st = true /\ step no_resources st ClickClear = st.
Proof.
  split; [reflexivity|].
  apply (no_reentrant_clear no_resources (sync_on None) [ClickClear]).
  reflexivity.
Defined.

Lemma flag_reset_on_every_exit_witness :
  let st := steps no_resources (mount (sync_on None)) [ClickClear] in
  0 < length (awaiting st) /\
  isClearing (step no_resources st (Settle 0 (Rejected Js.VNull))) = false /\
  awaiting (step no_resources st (Settle 0 (Rejected Js.VNull))) = [].
Proof.
  split; [cbn; lia|].
  apply (flag_reset_on_every_exit no_resources (sync_on None) [ClickClear]
           0 (Rejected Js.VNull)).
  cbn. lia.
Defined.

Lemma path_entry_normalises_empty_witness :
  changes (step no_resources (mount (sync_on None)) (EnterPath "foo"))
  = [[("vscodeSettingsPath", Js.VString "foo")]].
Proof.
  apply (path_entry_normalises_empty no_resources (mount (sync_on None))
           "foo").
  cbn. discriminate.
Defined.

Lemma settings_never_modified_witness :
  let st := steps no_resources (mount (sync_on None)) [ClickClear] in
  changes (step no_resources st (Settle 0 Resolved)) = changes st.
Proof.
  apply (settings_never_modified no_resources (sync_on None) [ClickClear]
           (Settle 0 Resolved)).
  reflexivity.
Defined.

Lemma rejection_without_message_falls_back_witness :
  let st := mount (sync_on None) in
  let reason := Js.VObject [("code", Js.VNumber "28")] in
  let st' := clear_then_settle no_resources st [] (Rejected reason) in
  exists text,
    I18n.t no_resources clearFailedKey clearFailedDefault
      [("error", Js.VString "[object Object]")] = Some text /\
    toasts st' = (toasts st ++ [Failure text])%list /\
    escaped st' = escaped st.
Proof.
  pose proof (rejection_without_message_falls_back no_resources
                (sync_on None) [] []
                (Js.VObject [("code", Js.VNumber "28")])
                eq_refl eq_refl) as (_ & Hfall & _).
  exact (Hfall "[object Object]" eq_refl eq_refl).
Defined.

Lemma path_roundtrip_except_empty_witness :
  let st := mount (sync_on (Some "/home/u/.config/Code/User/settings.json")) in
  changes (reenter_shown_path no_resources st)
  = [[("vscodeSettingsPath",
       Js.VString "/home/u/.config/Code/User/settings.json")]].
Proof.
  cbn zeta.
  refine (proj1 (proj2 (proj2
            (path_roundtrip_except_empty no_resources
               (mount (sync_on (Some "/home/u/.config/Code/User/settings.json")))
               _ eq_refl))) _).
  cbn. discriminate.
Defined.

(** A backend bridge rejects with a plain string: the string itself is the
    parameter, and the default template spells the notification out. *)
Example string_rejection_text :
  toasts (clear_then_settle no_resources (mount (sync_on None)) []
            (Rejected (Js.VString "disk full")))
  = [Failure "清除失败: disk full"].
Proof. reflexivity. Qed.

Example error_rejection_text :
  toasts (clear_then_settle no_resources (mount (sync_on None))
            [ClickClear; ClickClear]
            (Rejected (Js.VError "Error" "disk full")))
  = [Failure "清除失败: disk full"].
Proof. reflexivity. Qed.

Example success_text :
  toasts (clear_then_settle no_resources (mount (sync_on None)) [] Resolved)
  = [Success "VS Code Claude 插件配置已清除"].
Proof. reflexivity. Qed.

Example enter_foo_then_empty :
  changes (steps no_resources (mount (sync_on None))
             [EnterPath "foo"; EnterPath ""])
  = [[("vscodeSettingsPath", Js.VString "foo")];
     [("vscodeSettingsPath", Js.VUndefined)]].
Proof. reflexivity. Qed.

Example toggle_absent_flag :
  changes (step no_resources (mount (sync_on None))
             (Toggle Flag.silentStartup))
  = [[("silentStartup", Js.VBool true)]].
Proof. reflexivity. Qed.

Example hidden_panel_ignores_click :
  let settings :=
    {| launchOnStartup := None; silentStartup := None;
       enableClaudePluginIntegration := None;
       enableVscodeClaudeSync := Some false; skipClaudeOnboarding := None;
       minimizeToTrayOnClose := false; vscodeSettingsPath := None |} in
  step no_resources (mount settings) ClickClear = mount settings.
Proof. reflexivity. Qed.

Example unconvertible_rejection :
  let st' :=
    clear_then_settle no_resources (mount (sync_on None)) [ClickClear]
      (Rejected (Js.VArray [Js.VNumber "1";
                            Js.VObject [("toString", Js.VNull)]])) in
  toasts st' = [] /\ escaped st' = [Js.type_error] /\
  isClearing st' = false /\ clearCalls st' = 1.
Proof. repeat split. Qed.

Example message_object_rejection :
  let reason :=
    Js.VObject [("message", Js.VObject [("toString", Js.VString "x")])] in
  clear_failed_text no_resources reason = None /\
  clear_failed_text (fun _ => Some "Clearing failed") reason
  = Some "Clearing failed".
Proof. split; reflexivity. Qed.

(* ===================================================================== *)
(** ** Runs of the component *)
(* ===================================================================== *)

Section Runs.

Variable res : I18n.resources.

Lemma enabled_shows_panel (st : State) :
  clear_enabled res st = true ->
  enableVscodeClaudeSync (props st) = Some true /\ isClearing st = false.
Proof.
  unfold clear_enabled. destruct (syncPanel (view res st)) as [panel|] eqn:Hp;
    [|discriminate].
  destruct (view_panel res st panel Hp) as (Hs & D & _). rewrite D.
  intros H. split; [exact Hs|]. now destruct (isClearing st).
Qed.

Lemma shown_and_idle_enabled (st : State) :
  enableVscodeClaudeSync (props st) = Some true ->
  isClearing st = false ->
  clear_enabled res st = true.
Proof.
  intros Hs Hf. unfold clear_enabled, view, render. cbn [syncPanel].
  rewrite Hs, Hf. reflexivity.
Qed.

(** Every turn from a consistent state is of one of the kinds of [turn]. *)
Lemma step_turn (st : State) (ev : Event) :
  consistent res st -> turn res st ev (step res st ev).
Proof.
  intros Hst. destruct ev as [s | f | text | | i o].
  - apply turn_rerender.
  - rewrite step_toggle. destruct f; exact (turn_toggle res st _).
  - rewrite step_enter_path.
    destruct (syncPanel (view res st)) as [panel|] eqn:Hp.
    + apply turn_enter. apply (view_panel res st panel Hp).
    + now apply turn_ignored.
  - destruct (clear_enabled res st) eqn:Hen.
    + rewrite (step_click_enabled res st Hen).
      destruct (enabled_shows_panel st Hen) as [Hs Hf].
      destruct Hst as [[Hi Hq] | [Hb _]]; [|congruence].
      rewrite Hq. cbn [app]. apply turn_start; [split|]; assumption.
    + rewrite (step_click_disabled res st Hen). now apply turn_ignored.
  - destruct Hst as [[Hf Hq] | [Hf Hq]].
    + rewrite step_settle_none by (rewrite Hq; reflexivity).
      now apply turn_ignored.
    + destruct i as [|i].
      * rewrite (step_settle_parked res st o Hq).
        apply turn_finish. split; assumption.
      * rewrite step_settle_none by (rewrite Hq; destruct i; reflexivity).
        now apply turn_ignored.
Qed.

Lemma steps_snoc (st : State) (evs : list Event) (ev : Event) :
  steps res st (evs ++ [ev]) = step res (steps res st evs) ev.
Proof. unfold steps. now rewrite fold_left_app. Qed.

(** Induction over the runs whose events all pass [ok]. *)
Lemma run_invariant (ok : Event -> bool) (P : State -> Prop) :
  (forall st ev st',
      ok ev = true -> consistent res st -> P st -> turn res st ev st' ->
      P st') ->
  forall (evs : list Event) (st : State),
    forallb ok evs = true -> consistent res st -> P st ->
    P (steps res st evs).
Proof.
  intros Hturn. induction evs as [|ev evs IH]; intros st Hok Hc HP;
    [exact HP|].
  cbn [forallb] in Hok. apply andb_true_iff in Hok as [Hev Hok].
  apply (IH (step res st ev) Hok).
  - apply consistent_step, Hc.
  - apply (Hturn st ev _ Hev Hc HP), step_turn, Hc.
Qed.

Lemma forallb_all (evs : list Event) : forallb (fun _ => true) evs = true.
Proof. induction evs; [reflexivity | assumption]. Qed.

Lemma trace_invariant (P : State -> Prop) :
  (forall settings, P (mount settings)) ->
  (forall st ev st',
      consistent res st -> P st -> turn res st ev st' -> P st') ->
  forall settings evs, P (steps res (mount settings) evs).
Proof.
  intros Hm Hturn settings evs.
  apply (run_invariant (fun _ => true) P).
  - intros st ev st' _. apply Hturn.
  - apply forallb_all.
  - apply consistent_mount.
  - apply Hm.
Qed.

End Runs.

(* ===================================================================== *)
(** ** Further properties of the component *)
(* ===================================================================== *)

Section Further.

Variable res : I18n.resources.

Lemma step_props (st : State) (ev : Event) :
  is_rerender ev = false -> props (step res st ev) = props st.
Proof.
  destruct ev as [s | f | text | | i o]; intros Hev; [discriminate | | | |];
    unfold step.
  - apply run_props.
  - destruct (syncPanel (view res st)); [apply run_props | reflexivity].
  - destruct (syncPanel (view res st)); [apply run_props | reflexivity].
  - destruct (extract i (awaiting st)) as [[k rest]|]; [|reflexivity].
    now rewrite run_props.
Qed.

Lemma steps_props (evs : list Event) (st : State) :
  forallb (fun ev => negb (is_rerender ev)) evs = true ->
  props (steps res st evs) = props st.
Proof.
  revert st. induction evs as [|ev evs IH]; intros st Hall; [reflexivity|].
  cbn [forallb] in Hall. apply andb_true_iff in Hall as [Hev Hall].
  apply negb_true_iff in Hev.
  unfold steps in *. cbn [fold_left]. rewrite (IH _ Hall).
  apply step_props, Hev.
Qed.

(** X1.  In every run, each clear call that was started is either still
    pending, or has ended in exactly one notification, or has ended in a
    conversion error that left the handler. *)
Theorem calls_accounted :
  forall (settings : SettingsFormState) (evs : list Event),
    let st := steps res (mount settings) evs in
    clearCalls st
    = length (toasts st) + length (escaped st) + length (awaiting st).
Proof.
  intros settings evs. cbn zeta.
  apply (trace_invariant res
           (fun st => clearCalls st
                      = length (toasts st) + length (escaped st)
                        + length (awaiting st))).
  - reflexivity.
  - intros st ev st' _ H T.
    destruct T as [s | f | text _ | [_ Hq] _ | o [_ Hq] | ev _]; cbn;
      try exact H.
    + rewrite H, Hq. cbn. lia.
    + destruct (settled_fields res st o) as (_ & _ & -> & -> & ->).
      destruct (settled_idle res st o) as [_ ->].
      rewrite H, Hq, !length_app. unfold shown.
      destruct (notification res o); cbn; lia.
Qed.


(** X3.  The button is never stuck disabled: whenever the flag is set,
    exactly one clear call is pending, and its settlement, whatever the
    outcome, clears the flag.  The settlement adds the notification of the
    outcome, or, when building its text throws, adds none and lets the
    conversion error leave the handler. *)
Theorem flag_set_only_while_pending :
  forall (settings : SettingsFormState) (evs : list Event) (o : Outcome),
    let st := steps res (mount settings) evs in
    let st' := step res st (Settle 0 o) in
    isClearing st = true ->
    length (awaiting st) = 1 /\
    isClearing st' = false /\ awaiting st' = [] /\
    match notification res o with
    | Some note =>
        toasts st' = (toasts st ++ [note])%list /\ escaped st' = escaped st
    | None =>
        toasts st' = toasts st /\
        escaped st' = (escaped st ++ [Js.type_error])%list
    end.
Proof.
  intros settings evs o st st' Hflag.
  pose proof (consistent_trace res settings evs) as Hst. fold st in Hst.
  destruct Hst as [[Hf _] | [_ Hq]]; [congruence|].
  unfold st'. rewrite (step_settle_parked res st o Hq), Hq.
  unfold settled. destruct (notification res o); repeat split.
Qed.

(** X4.  Every update the component ever asks its parent for has a single
    key: one of the six flags with a boolean, or [vscodeSettingsPath] with
    a text that is not empty or with [undefined].  An empty path is never
    requested. *)
Theorem updates_single_key :
  forall (settings : SettingsFormState) (evs : list Event),
    forallb single_key_update (changes (steps res (mount settings) evs))
    = true.
Proof.
  intros settings evs.
  apply (trace_invariant res
           (fun st => forallb single_key_update (changes st) = true)).
  - reflexivity.
  - intros st ev st' _ H T.
    destruct T as [s | f | text _ | _ _ | o _ | ev _]; cbn; try exact H.
    + rewrite forallb_app, H. destruct f; reflexivity.
    + rewrite forallb_app, H. cbn [forallb andb].
      destruct (text =? "") eqn:E; [reflexivity|].
      cbn. rewrite E. reflexivity.
    + destruct (settled_fields res st o) as (_ & -> & _). exact H.
Qed.

(** X5.  Without a click on the clear button nothing is cleared: a run of
    toggles, path edits, re-renders and stray settlements starts no clear
    call, shows no notification and never sets the flag. *)
Theorem no_click_no_call :
  forall (settings : SettingsFormState) (evs : list Event),
    forallb (fun ev => negb (is_click ev)) evs = true ->
    let st := steps res (mount settings) evs in
    clearCalls st = 0 /\ toasts st = [] /\ isClearing st = false /\
    awaiting st = [].
Proof.
  intros settings evs Hall. cbn zeta.
  apply (run_invariant res (fun ev => negb (is_click ev))
           (fun st => clearCalls st = 0 /\ toasts st = [] /\
                      isClearing st = false /\ awaiting st = []));
    [| exact Hall | apply consistent_mount | repeat split].
  intros st ev st' Hev _ (C & T & F & A) Hturn.
  destruct Hturn as [s | f | text _ | _ _ | o [Hb _] | ev _]; cbn;
    try (repeat split; assumption).
  - discriminate.
  - congruence.
Qed.

(** X6.  No retry and no spontaneous report: in every run the clear
    operation is started at most once per click on the button, and there
    are at most as many notifications as settlements. *)
Theorem calls_bounded_by_clicks :
  forall (settings : SettingsFormState) (evs : list Event),
    let st := steps res (mount settings) evs in
    clearCalls st <= length (filter is_click evs) /\
    length (toasts st) <= length (filter is_settle evs).
Proof.
  intros settings evs. cbn zeta.
  induction evs as [|ev evs [IHc IHt]] using rev_ind; [split; cbn; lia|].
  rewrite steps_snoc, !filter_app, !length_app.
  pose proof (step_turn res (steps res (mount settings) evs) ev
                (consistent_trace res settings evs)) as T.
  destruct T as [s | f | text _ | _ _ | o _ | ev _]; cbn; try lia.
  destruct (settled_fields res (steps res (mount settings) evs) o)
    as (_ & _ & -> & -> & _).
  rewrite length_app. unfold shown.
  destruct (notification res o); cbn; lia.
Qed.

(** X7.  A toggle or a path edit does nothing but ask the parent: what is
    on screen stays as it is until the parent re-renders, and the flag, the
    pending call, the notifications and the count of started calls are
    untouched. *)
Theorem edits_only_request :
  forall (st : State) (ev : Event),
    is_edit ev = true ->
    let st' := step res st ev in
    view res st' = view res st /\ props st' = props st /\
    isClearing st' = isClearing st /\ awaiting st' = awaiting st /\
    toasts st' = toasts st /\ clearCalls st' = clearCalls st /\
    escaped st' = escaped st.
Proof.
  intros st ev Hev. cbn zeta.
  destruct ev as [s | f | text | | i o]; try discriminate.
  - rewrite step_toggle. repeat split.
  - rewrite step_enter_path. destruct (syncPanel (view res st)); repeat split.
Qed.

End Further.

(** X8.  The other direction of the path field's round trip: once the
    parent has stored what an entry asked for, the field shows exactly the
    text that was entered, the empty text included. *)
Theorem shown_after_entry :
  forall (res : I18n.resources) (st : State) (text : string)
         (settings' : SettingsFormState),
    syncPanel (view res st) <> None ->
    enableVscodeClaudeSync settings' = Some true ->
    last (changes (step res st (EnterPath text))) []
    = [("vscodeSettingsPath", Js.of_string (vscodeSettingsPath settings'))] ->
    exists panel,
      syncPanel (view res (step res (step res st (EnterPath text))
                             (Rerender settings')))
      = Some panel /\
      input_shown (pathInput panel) = text.
Proof.
  intros res st text settings' Hshown Hsync Hstored.
  rewrite step_enter_path in Hstored.
  destruct (syncPanel (view res st)) as [shown|]; [|contradiction].
  cbn [exec changes] in Hstored. rewrite last_last in Hstored.
  unfold view, render. cbn [syncPanel step props isClearing].
  rewrite Hsync. cbn. eexists. split; [reflexivity|].
  unfold input_shown. cbn [pathInput value].
  destruct (String.eqb_spec text "") as [-> | Hne];
    destruct (vscodeSettingsPath settings') as [stored|]; cbn in *;
    congruence.
Qed.

(** X9.  Whenever the [error] parameter of the failure notification is
    produced, it is neither [undefined] nor [null], whatever the clear
    operation rejected with. *)
Theorem error_param_defined :
  forall reason param : Js.value,
    error_param reason = Some param -> Js.nullish param = false.
Proof.
  intros reason param. unfold error_param.
  destruct (Js.nullish (Js.optional_message reason)) eqn:E.
  - destruct (Js.to_string reason); [|discriminate].
    intros [= <-]. reflexivity.
  - intros [= <-]. exact E.
Qed.

(** X10.  Whenever the text of the failure notification can be built, the
    [error] parameter was produced and converts to a string, and the text
    contains that string, as long as the template in force keeps the
    [{{error}}] placeholder. *)
Theorem failure_text_carries_param :
  forall (res : I18n.resources) (reason : Js.value) (text : string),
    I18n.mentions "error"
      (I18n.parse (I18n.template res clearFailedKey clearFailedDefault))
    = true ->
    clear_failed_text res reason = Some text ->
    exists param s,
      error_param reason = Some param /\
      Js.to_string param = Some s /\
      contains text s.
Proof.
  intros res reason text Htpl. unfold clear_failed_text.
  destruct (error_param reason) as [param|]; [|discriminate].
  intros Ht.
  destruct (t_contains res clearFailedKey clearFailedDefault "error" text
              [("error", param)] param eq_refl Htpl Ht) as (s & Hs & Hc).
  now exists param, s.
Qed.

(** X11.  Where the locale has no entry for the two keys, the defaults
    written in the source are what the user reads: the success text as it
    is, and, for a rejection whose [error] parameter converts to a plain
    text, the failure text as its prefix followed by that text.  When the
    parameter cannot be produced or converted there is no failure text. *)
Theorem default_texts :
  forall res : I18n.resources,
    res clearSuccessKey = None ->
    res clearFailedKey = None ->
    clear_success_text res = Some clearSuccessDefault /\
    (forall reason param s,
        error_param reason = Some param ->
        Js.to_string param = Some s ->
        plain_text s = true ->
        clear_failed_text res reason = Some ("清除失败: " ++ s)) /\
    (forall reason,
        match error_param reason with
        | Some param => Js.to_string param = None
        | None => True
        end ->
        clear_failed_text res reason = None).
Proof.
  intros res Hs Hf.
  assert (Hfail : forall reason param,
             error_param reason = Some param ->
             clear_failed_text res reason
             = option_map (append "清除失败: ") (Js.to_string param)).
  { intros reason param Hp.
    unfold clear_failed_text, I18n.t, I18n.template. rewrite Hp, Hf.
    unfold I18n.interpolate.
    change (I18n.parse clearFailedDefault)
      with [I18n.Lit "清除失败: "; I18n.Var "error"; I18n.Lit ""].
    cbn [map I18n.fill I18n.find String.eqb Ascii.eqb Bool.eqb Js.sequence].
    destruct (Js.to_string param) as [s|]; [|reflexivity].
    cbn [option_map]. rewrite !concat_cons. cbn [String.concat].
    now rewrite append_empty_r. }
  split; [|split].
  - unfold clear_success_text, I18n.t, I18n.template. rewrite Hs. reflexivity.
  - intros reason param s Hp Hstr _. rewrite (Hfail reason param Hp), Hstr.
    reflexivity.
  - intros reason. destruct (error_param reason) as [param|] eqn:Hp.
    + intros Hnone. rewrite (Hfail reason param Hp), Hnone. reflexivity.
    + intros _. unfold clear_failed_text. now rewrite Hp.
Qed.

(** X12.  The clear action can be repeated.  After one whole action, with
    no re-render in between, the button is enabled again; a second action
    then starts a second call, and the notifications of the two outcomes
    are added in that order (none for an outcome whose text cannot be
    built). *)
Theorem clear_repeatable :
  forall (res : I18n.resources) (settings : SettingsFormState)
         (before first second : list Event) (o1 o2 : Outcome),
    let st := steps res (mount settings) before in
    clear_enabled res st = true ->
    forallb (fun ev => negb (is_settle ev) && negb (is_rerender ev)) first
    = true ->
    forallb (fun ev => negb (is_settle ev)) second = true ->
    let st1 := clear_then_settle res st first o1 in
    let st2 := clear_then_settle res st1 second o2 in
    clear_enabled res st1 = true /\
    toasts st2 = (toasts st ++ shown res o1 ++ shown res o2)%list /\
    clearCalls st2 = S (S (clearCalls st)) /\
    isClearing st2 = false /\ awaiting st2 = [].
Proof.
  intros res settings before first second o1 o2 st Hen Hfirst Hsecond st1 st2.
  assert (Hc : consistent res st) by apply consistent_trace.
  assert (Hsettle : forallb (fun ev => negb (is_settle ev)) first = true).
  { clear -Hfirst. induction first as [|ev evs IH]; [reflexivity|].
    cbn [forallb] in *. apply andb_true_iff in Hfirst as [Hev Hall].
    apply andb_true_iff in Hev as [Hev _]. now rewrite Hev, IH. }
  assert (Hrer : forallb (fun ev => negb (is_rerender ev)) first = true).
  { clear -Hfirst. induction first as [|ev evs IH]; [reflexivity|].
    cbn [forallb] in *. apply andb_true_iff in Hfirst as [Hev Hall].
    apply andb_true_iff in Hev as [_ Hev]. now rewrite Hev, IH. }
  destruct (clear_then_settle_spec res st first o1 Hc Hen Hsettle)
    as (_ & _ & F1 & A1 & C1 & T1 & _).
  fold st1 in F1, A1, C1, T1.
  assert (Hp1 : props st1 = props st).
  { unfold st1, clear_then_settle.
    rewrite step_props by reflexivity.
    rewrite steps_props by exact Hrer.
    apply step_props. reflexivity. }
  assert (Hen1 : clear_enabled res st1 = true).
  { apply shown_and_idle_enabled; [|exact F1].
    rewrite Hp1. apply (enabled_shows_panel res st Hen). }
  assert (Hc1 : consistent res st1).
  { unfold st1, clear_then_settle.
    apply consistent_step, consistent_steps, consistent_step, Hc. }
  destruct (clear_then_settle_spec res st1 second o2 Hc1 Hen1 Hsecond)
    as (_ & _ & F2 & A2 & C2 & T2 & _).
  fold st2 in F2, A2, C2, T2.
  split; [exact Hen1|]. split; [|split; [|split]]; try assumption.
  - rewrite T2, T1, <- app_assoc. reflexivity.
  - rewrite C2, C1. reflexivity.
Qed.

(** X13.  No two toggle rows write the same setting: the handlers of two
    different rows ask for different updates, whatever value is reported. *)
Theorem toggle_keys_distinct :
  forall (res : I18n.resources) (st : State) (f g : Flag.t) (v w : bool),
    f <> g ->
    onCheckedChange (toggleRow (view res st) f) v
    <> onCheckedChange (toggleRow (view res st) g) w.
Proof.
  intros res st f g v w Hne.
  destruct f, g; try contradiction; cbn; discriminate.
Qed.

(* ===================================================================== *)
(** ** The further properties at concrete inputs *)
(* ===================================================================== *)

Lemma flag_set_only_while_pending_witness :
  let st := steps no_resources (mount (sync_on None))
              [ClickClear; Rerender (sync_on (Some "a"))] in
  let st' :=
    step no_resources st (Settle 0 (Rejected (Js.VString "busy"))) in
  length (awaiting st) = 1 /\
  isClearing st' = false /\ awaiting st' = [] /\
  toasts st' = (toasts st ++ [Failure "清除失败: busy"])%list /\
  escaped st' = escaped st.
Proof.
  apply (flag_set_only_while_pending no_resources (sync_on None)
           [ClickClear; Rerender (sync_on (Some "a"))]
           (Rejected (Js.VString "busy"))).
  reflexivity.
Defined.


Lemma error_param_defined_witness :
  error_param Js.VNull = Some (Js.VString "null") /\
  Js.nullish (Js.VString "null") = false.
Proof.
  split; [reflexivity|].
  apply (error_param_defined Js.VNull (Js.VString "null")). reflexivity.
Defined.

Lemma no_click_no_call_witness :
  let st := steps no_resources (mount (sync_on None))
              [Toggle Flag.enableVscodeClaudeSync; EnterPath "x";
               Settle 0 Resolved; Rerender (sync_on (Some "x"))] in
  clearCalls st = 0 /\ toasts st = [] /\ isClearing st = false /\
  awaiting st = [].
Proof.
  apply (no_click_no_call no_resources (sync_on None)
           [Toggle Flag.enableVscodeClaudeSync; EnterPath "x";
            Settle 0 Resolved; Rerender (sync_on (Some "x"))]).
  reflexivity.
Defined.

Lemma edits_only_request_witness :
  let st := steps no_resources (mount (sync_on None)) [ClickClear] in
  let st' := step no_resources st (EnterPath "x") in
  view no_resources st' = view no_resources st /\ props st' = props st /\
  isClearing st' = isClearing st /\ awaiting st' = awaiting st /\
  toasts st' = toasts st /\ clearCalls st' = clearCalls st /\
  escaped st' = escaped st.
Proof.
  apply (edits_only_request no_resources
           (steps no_resources (mount (sync_on None)) [ClickClear])
           (EnterPath "x")).
  reflexivity.
Defined.

Lemma shown_after_entry_witness :
  exists panel,
    syncPanel
      (view no_resources
         (step no_resources
            (step no_resources (mount (sync_on None)) (EnterPath ""))
            (Rerender (sync_on None))))
    = Some panel /\
    input_shown (pathInput panel) = "".
Proof.
  apply (shown_after_entry no_resources (mount (sync_on None)) ""
           (sync_on None)).
  - cbn. discriminate.
  - reflexivity.
  - reflexivity.
Defined.

Lemma failure_text_carries_param_witness :
  exists param s,
    error_param (Js.VArray [Js.VNumber "5"; Js.VNull]) = Some param /\
    Js.to_string param = Some s /\
    contains "清除失败: 5," s.
Proof.
  apply (failure_text_carries_param no_resources
           (Js.VArray [Js.VNumber "5"; Js.VNull]) "清除失败: 5,");
    reflexivity.
Defined.

Lemma default_texts_witness :
  clear_success_text no_resources = Some clearSuccessDefault /\
  clear_failed_text no_resources (Js.VError "Error" "disk full")
  = Some "清除失败: disk full".
Proof.
  destruct (default_texts no_resources eq_refl eq_refl) as (Hs & Hf & _).
  split; [exact Hs|].
  exact (Hf (Js.VError "Error" "disk full") (Js.VString "disk full")
            "disk full" eq_refl eq_refl eq_refl).
Defined.

Lemma clear_repeatable_witness :
  let st := mount (sync_on None) in
  let st1 :=
    clear_then_settle no_resources st [Toggle Flag.silentStartup] Resolved in
  let st2 :=
    clear_then_settle no_resources st1 [ClickClear]
      (Rejected (Js.VString "disk full")) in
  clear_enabled no_resources st1 = true /\
  toasts st2
  = (toasts st ++
     [Success "VS Code Claude 插件配置已清除";
      Failure "清除失败: disk full"])%list /\
  clearCalls st2 = S (S (clearCalls st)) /\
  isClearing st2 = false /\ awaiting st2 = [].
Proof.
  apply (clear_repeatable no_resources (sync_on None) []
           [Toggle Flag.silentStartup] [ClickClear] Resolved
           (Rejected (Js.VString "disk full")));
    reflexivity.
Defined.

Lemma toggle_keys_distinct_witness :
  onCheckedChange
    (toggleRow (view no_resources (mount (sync_on None)))
       Flag.enableVscodeClaudeSync) true
  <> onCheckedChange
       (toggleRow (view no_resources (mount (sync_on None)))
          Flag.enableClaudePluginIntegration) true.
Proof.
  apply (toggle_keys_distinct no_resources (mount (sync_on None))
           Flag.enableVscodeClaudeSync Flag.enableClaudePluginIntegration
           true true).
  discriminate.
Defined.
